(** * docs/conf.py of hyperion_mpl: the Sphinx configuration module

    The repository's only program is [docs/conf.py], a Python module that
    Sphinx executes once to obtain its configuration.  The module is a
    straight line of top-level statements: two imports, one call of
    [subprocess.call], and a run of assignments to module globals.

    This development has three layers.
    - [Syntax]: the fragment of Python's statement and expression grammar
      the module is written in, together with the compound statements a
      module could contain and this one does not.
    - [conf_py]: the module itself, statement by statement, in source order.
    - [Semantics]: an evaluator with explicit state passing.  The state is
      the module namespace (a Python dict, here a [gmap]) and the sequence
      of steps performed so far; the only input is the [World], which
      answers the one question the module asks of its surroundings: the
      exit status of a shell command.

    The imported modules ([sphinx.builders.html], [subprocess], [os]) are
    taken to be present: Sphinx itself runs the module, the other two are
    in Python's standard library.  [host_run] is the evaluator without
    that assumption: on a [Host] an import can fail and the shell can fail
    to start. *)

From Stdlib Require Import ZArith Ascii.
From stdpp Require Import gmap strings list fin_maps.

Set Warnings "-register-all".
Local Open Scope Z_scope.

(** ** Values *)

(** Python objects the module can hold in its namespace.  A dict is kept as
    an association list in insertion order; [VMember m n] is the object
    named [n] that lives in module [m] (a function or a class, which this
    module only ever names or calls, never inspects). *)
Inductive value : Type :=
| VNone
| VBool (b : bool)
| VInt (n : Z)
| VStr (s : string)
| VList (items : list value)
| VTuple (items : list value)
| VDict (entries : list (value * value))
| VModule (name : string)
| VMember (modname name : string).

(** Python's [==] on the values above.  [bool] is a subclass of [int], so
    [True == 1] and [False == 0]; a list never equals a tuple. *)
Fixpoint value_eqb (a b : value) {struct a} : bool :=
  let fix all_eqb (xs ys : list value) {struct xs} : bool :=
    match xs, ys with
    | [], [] => true
    | x :: xs', y :: ys' => value_eqb x y && all_eqb xs' ys'
    | _, _ => false
    end in
  let fix entry_in (k v : value) (ys : list (value * value)) {struct ys} : bool :=
    match ys with
    | [] => false
    | (k', v') :: ys' => (value_eqb k k' && value_eqb v v') || entry_in k v ys'
    end in
  let fix entries_in (xs ys : list (value * value)) {struct xs} : bool :=
    match xs with
    | [] => true
    | (k, v) :: xs' => entry_in k v ys && entries_in xs' ys
    end in
  match a, b with
  | VNone, VNone => true
  | VBool x, VBool y => Bool.eqb x y
  | VBool x, VInt y => Z.eqb (Z.b2z x) y
  | VInt x, VBool y => Z.eqb x (Z.b2z y)
  | VInt x, VInt y => Z.eqb x y
  | VStr x, VStr y => String.eqb x y
  | VList xs, VList ys => all_eqb xs ys
  | VTuple xs, VTuple ys => all_eqb xs ys
  | VDict xs, VDict ys =>
      Nat.eqb (length xs) (length ys) && entries_in xs ys
  | VModule x, VModule y => String.eqb x y
  | VMember m x, VMember n y => String.eqb m n && String.eqb x y
  | _, _ => false
  end.

(** Only hashable objects can be dict keys: lists and dicts are not. *)
Fixpoint hashable (v : value) : bool :=
  match v with
  | VList _ | VDict _ => false
  | VTuple items => forallb hashable items
  | _ => true
  end.

(** [d[k]] and [d[k] = v] on the association list.  Assigning to a key
    already present keeps the key's position and replaces its value. *)
Fixpoint dict_get (d : list (value * value)) (k : value) : option value :=
  match d with
  | [] => None
  | (k', v') :: d' => if value_eqb k' k then Some v' else dict_get d' k
  end.

Fixpoint dict_set (d : list (value * value)) (k v : value) : list (value * value) :=
  match d with
  | [] => [(k, v)]
  | (k', v') :: d' =>
      if value_eqb k' k then (k', v) :: d' else (k', v') :: dict_set d' k v
  end.

Definition dict_keys (d : list (value * value)) : list value := d.*1.

(** ** Syntax *)

Module Syntax.

(** Expressions.  [EParen items comma] is the parenthesised form
    [( items )]; [comma] records whether the source has a trailing comma
    after the last item. *)
Inductive expr : Type :=
| ENone
| EBool (b : bool)
| EInt (n : Z)
| EStr (s : string)
| EName (id : string)
| EAttr (obj : expr) (attr : string)
| EList (items : list expr)
| EParen (items : list expr) (comma : bool)
| EDict (entries : list (expr * expr))
| ECall (func : expr) (args : list expr) (keywords : list (string * expr)).

(** Statements.  The first four are the simple statements [conf.py] is
    made of; the rest are the definitions and control-flow statements of
    the Python grammar. *)
Inductive stmt : Type :=
| SImport (modules : list string)
| SImportFrom (module : string) (names : list string)
| SAssign (target : string) (rhs : expr)
| SExpr (e : expr)
| SPass
| SFunctionDef (name : string) (params : list string) (body : list stmt)
| SClassDef (name : string) (bases : list expr) (body : list stmt)
| SIf (test : expr) (body orelse : list stmt)
| SFor (target : string) (iter : expr) (body orelse : list stmt)
| SWhile (test : expr) (body orelse : list stmt)
| STry (body handler finalbody : list stmt)
| SWith (ctx : expr) (body : list stmt)
| SReturn (e : expr)
| SRaise (e : expr)
| SAssert (test : expr)
| SBreak
| SContinue.

End Syntax.
Import Syntax.

(** ** The module [docs/conf.py] *)

Definition newline : string := String "010"%char EmptyString.

(** A triple-quoted string literal whose opening quotes are followed by a
    line break and whose closing quotes stand on a line of their own: every
    line, the empty first one included, ends in a newline. *)
Definition triple_quoted (lines : list string) : string :=
  foldr (λ l rest, l +:+ newline +:+ rest) "" lines.

Definition doxygen_command : string := "doxygen Doxyfile".

Definition rst_prolog_text : string :=
  triple_quoted [
    "";
    ".. role:: cpp(code)";
    "    :language: cpp";
    "    :class: highlight";
    "";
    ".. role:: rust(code)";
    "    :language: rust";
    "    :class: highlight";
    "";
    ".. role:: cmake(code)";
    "    :language: cmake";
    "    :class: highlight";
    "";
    ".. role:: bash(code)";
    "    :language: bash";
    "    :class: highlight";
    "";
    ".. role:: lua(code)";
    "    :language: lua";
    "    :class: highlight";
    "";
    ".. role:: xmake(code)";
    "    :language: lua";
    "    :class: highlight"
  ].

(** The top-level statements of the module, in source order. *)
Definition conf_py : list stmt := [
  SImportFrom "sphinx.builders.html" ["StandaloneHTMLBuilder"];
  SImport ["subprocess"; "os"];
  SExpr (ECall (EAttr (EName "subprocess") "call")
               [EStr doxygen_command] [("shell", EBool true)]);

  SAssign "project" (EStr "hyperion::mpl");
  SAssign "copyright" (EStr "2024, Braxton Salyer <braxtonsalyer@gmail.com>");
  SAssign "author" (EStr "Braxton Salyer <braxtonsalyer@gmail.com>");

  SAssign "extensions" (EList [
    EStr "sphinx.ext.autodoc";
    EStr "sphinx.ext.autosummary";
    EStr "sphinx.ext.intersphinx";
    EStr "sphinx.ext.autosectionlabel";
    EStr "sphinx.ext.todo";
    EStr "sphinx.ext.coverage";
    EStr "sphinx.ext.mathjax";
    EStr "sphinx.ext.ifconfig";
    EStr "sphinx.ext.viewcode";
    EStr "sphinx.ext.inheritance_diagram";
    EStr "sphinx_sitemap";
    EStr "breathe";
    EStr "myst_parser"
  ]);
  SAssign "myst_enable_extensions" (EList [
    EStr "amsmath";
    EStr "colon_fence";
    EStr "deflist";
    EStr "dollarmath";
    EStr "fieldlist";
    EStr "html_admonition";
    EStr "html_image";
    EStr "linkify";
    EStr "replacements";
    EStr "smartquotes";
    EStr "strikethrough";
    EStr "substitution";
    EStr "tasklist"
  ]);

  SAssign "templates_path" (EList [EStr "_templates"]);
  SAssign "exclude_patterns" (EList [EStr "_build"; EStr "Thumbs.db"; EStr ".DS_Store"]);

  SAssign "highlight_language" (EStr "c++");

  SAssign "autosummary_generate" (EBool true);
  SAssign "html_baseurl" (EStr "braxtons12.github.io/hyperion_mpl");
  SAssign "html_theme" (EStr "pydata_sphinx_theme");
  SAssign "html_theme_options" (EDict [
    (EStr "github_url", EStr "https://github.com/braxtons12/hyperion_mpl");
    (EStr "header_links_before_dropdown", EInt 8);
    (EStr "show_toc_level", EInt 1);
    (EStr "navigation_depth", EInt 2);
    (EStr "show_nav_level", EInt 0);
    (EStr "pygment_light_style", EStr "manni");
    (EStr "pygment_dark_style", EStr "one-dark");
    (EStr "navbar_start", EList [EStr "navbar-logo"; EStr "theme-switcher"]);
    (EStr "navbar_center", EList [EStr "navbar-nav"]);
    (EStr "navbar_end", EList [EStr "navbar-icon-links"]);
    (EStr "secondary_sidebar_items", EList [EStr "page-toc"]);
    (EStr "footer_items",
       EList [EStr "copyright"; EStr "last-updated"; EStr "sphinx-version"])
  ]);
  SAssign "html_sidebars" (EDict [
    (EStr "**", EList [EStr "search-field"; EStr "navbar-nav";
                       EStr "sidebar-nav-bs"; EStr "sidebar-ethical-ads"])
  ]);
  SAssign "html_context" (EDict [
    (EStr "default_mode", EStr "dark")
  ]);
  SAssign "html_static_path" (EList [EStr "_static"]);
  SAssign "rst_prolog" (EStr rst_prolog_text);

  SAssign "breathe_projects" (EDict [
    (EStr "hyperion::mpl", EStr "_build/xml")
  ]);
  SAssign "breathe_default_project" (EStr "hyperion::mpl");
  SAssign "breathe_default_members" (EParen [EStr "members"] false)
].

(** ** Semantics *)

(** What the module's evaluation depends on from outside.  [run_shell cmd]
    is the exit status with which the shell returns when asked to run
    [cmd] (negative when killed by a signal); [initial_namespace] is the
    namespace the host executes the module in, with whatever names it has
    put there beforehand. *)
Record World : Type := mkWorld {
  run_shell : string → Z;
  initial_namespace : gmap string value
}.

(** The steps of an evaluation that can be seen from outside. *)
Inductive event : Type :=
| EvImport (module : string)
| EvSpawn (command : string) (shell : bool) (status : Z)
| EvAssign (name : string) (v : value).

Record state : Type := mkState {
  globals : gmap string value;
  trace : list event
}.

Inductive exn : Type :=
| NameError (id : string)
| TypeError
| CalledProcessError (status : Z) (command : string)
| ImportError (module : string)
| OSError (command : string)
| NotModelled.

Inductive result (A : Type) : Type :=
| Ok (a : A)
| Raise (e : exn).
Arguments Ok {A} a.
Arguments Raise {A} e.

(** State and exceptions: a computation takes the state and either returns
    a result with the new state or raises. *)
Definition M (A : Type) : Type := state → result (A * state).

#[global] Instance M_ret : MRet M := λ A a s, Ok (a, s).
#[global] Instance M_bind : MBind M := λ A B f m s,
  match m s with
  | Ok (a, s') => f a s'
  | Raise e => Raise e
  end.

Definition raise {A : Type} (e : exn) : M A := λ _, Raise e.

Definition emit (ev : event) : M unit :=
  λ s, Ok (tt, mkState (globals s) (trace s ++ [ev])).

Definition bind_name (id : string) (v : value) : M unit :=
  λ s, Ok (tt, mkState (<[id := v]> (globals s)) (trace s)).

(** Reading a name.  The module reads no builtin name, so the builtins
    namespace behind the globals is left out. *)
Definition lookup_name (id : string) : M value :=
  λ s, match globals s !! id with
       | Some v => Ok (v, s)
       | None => Raise (NameError id)
       end.

Definition assign (id : string) (v : value) : M unit :=
  bind_name id v;; emit (EvAssign id v).

(** [import a.b.c] binds the top-level package [a]. *)
Fixpoint top_package (name : string) : string :=
  match name with
  | EmptyString => EmptyString
  | String c rest =>
      if Ascii.eqb c "."%char then EmptyString else String c (top_package rest)
  end.

Definition import_module (name : string) : M unit :=
  emit (EvImport name);;
  bind_name (top_package name) (VModule (top_package name)).

Definition import_from (module name : string) : M unit :=
  bind_name name (VMember module name).

Definition get_attr (obj : value) (attr : string) : M value :=
  match obj with
  | VModule m => mret (VMember m attr)
  | _ => raise NotModelled
  end.

(** Python's truth value of an object. *)
Definition truthy (v : value) : bool :=
  match v with
  | VNone => false
  | VBool b => b
  | VInt n => negb (n =? 0)
  | VStr s => negb (String.eqb s "")
  | VList items | VTuple items => negb (Nat.eqb (length items) 0)
  | VDict entries => negb (Nat.eqb (length entries) 0)
  | VModule _ | VMember _ _ => true
  end.

(** A dict display: entries are inserted left to right, a later entry
    replaces an earlier one with an equal key, an unhashable key raises. *)
Fixpoint build_dict (acc entries : list (value * value)) : M value :=
  match entries with
  | [] => mret (VDict acc)
  | (k, v) :: rest =>
      if hashable k then build_dict (dict_set acc k v) rest
      else raise TypeError
  end.

(** Evaluate a list of items left to right. *)
Section eval_each.
Context {A B : Type} (f : A → M B).

Fixpoint eval_each (items : list A) : M (list B) :=
  match items with
  | [] => mret []
  | x :: rest => v ← f x; vs ← eval_each rest; mret (v :: vs)
  end.
End eval_each.

Section Semantics.
Variable w : World.

(** [subprocess.call(cmd, shell=True)] hands [cmd] to the shell, waits,
    and returns the exit status, whatever it is.  [subprocess.check_call]
    is the sibling that raises on a non-zero status.  Other argument
    shapes are not used by the module. *)
Definition subprocess_run (check : bool) (args : list value)
    (keywords : list (string * value)) : M value :=
  match args, keywords with
  | [VStr cmd], [(kw, sh)] =>
      if String.eqb kw "shell" && truthy sh then
        let status := run_shell w cmd in
        emit (EvSpawn cmd true status);;
        if check && negb (status =? 0)
        then raise (CalledProcessError status cmd)
        else mret (VInt status)
      else raise NotModelled
  | _, _ => raise NotModelled
  end.

Definition call (f : value) (args : list value)
    (keywords : list (string * value)) : M value :=
  match f with
  | VMember m n =>
      if String.eqb m "subprocess" && String.eqb n "call"
      then subprocess_run false args keywords
      else if String.eqb m "subprocess" && String.eqb n "check_call"
      then subprocess_run true args keywords
      else raise NotModelled
  | _ => raise TypeError
  end.

(** Expressions.  A parenthesised form with one item and no trailing
    comma is that item; with a comma, or with no or several items, it is
    a tuple. *)
Fixpoint eval (e : expr) : M value :=
  match e with
  | ENone => mret VNone
  | EBool b => mret (VBool b)
  | EInt n => mret (VInt n)
  | EStr s => mret (VStr s)
  | EName id => lookup_name id
  | EAttr obj attr => o ← eval obj; get_attr o attr
  | EList items => vs ← eval_each eval items; mret (VList vs)
  | EParen [item] false => eval item
  | EParen items _ => vs ← eval_each eval items; mret (VTuple vs)
  | EDict entries =>
      kvs ← eval_each (λ '(k, v), kv ← eval k; vv ← eval v; mret (kv, vv))
                      entries;
      build_dict [] kvs
  | ECall func args keywords =>
      f ← eval func;
      avs ← eval_each eval args;
      kvs ← eval_each (λ '(kw, a), av ← eval a; mret (kw, av)) keywords;
      call f avs kvs
  end.

(** Statements.  Definitions and control flow are given no meaning
    here: the module has none. *)
Definition exec (s : stmt) : M unit :=
  match s with
  | SImport modules => eval_each import_module modules;; mret tt
  | SImportFrom module names =>
      emit (EvImport module);;
      eval_each (import_from module) names;; mret tt
  | SAssign target rhs => v ← eval rhs; assign target v
  | SExpr e => eval e;; mret tt
  | SPass => mret tt
  | _ => raise NotModelled
  end.

Fixpoint exec_block (body : list stmt) : M unit :=
  match body with
  | [] => mret tt
  | s :: rest => exec s;; exec_block rest
  end.

(** Evaluating a module: its statements run in order in the namespace
    the host provides. *)
Definition run_module (body : list stmt) : result state :=
  match exec_block body (mkState (initial_namespace w) []) with
  | Ok (_, s) => Ok s
  | Raise e => Raise e
  end.

End Semantics.

Arguments run_module w body : simpl never.

(** ** Reading a trace *)

Definition assign_event (b : string * value) : event := EvAssign b.1 b.2.

(** The assignments of a trace, oldest first. *)
Definition assignments (t : list event) : list (string * value) :=
  omap (λ ev, match ev with EvAssign x v => Some (x, v) | _ => None end) t.

(** The processes started in a trace, oldest first. *)
Definition spawns (t : list event) : list (string * bool * Z) :=
  omap (λ ev, match ev with
              | EvSpawn cmd sh status => Some (cmd, sh, status)
              | _ => None
              end) t.

Definition is_import_event (ev : event) : bool :=
  match ev with EvImport _ => true | _ => false end.

Definition is_spawn_event (ev : event) : bool :=
  match ev with EvSpawn _ _ _ => true | _ => false end.

Definition is_assign_event (ev : event) : bool :=
  match ev with EvAssign _ _ => true | _ => false end.

(** ** Namespaces after a run of bindings *)

(** Binding names one after the other; a later binding of a name replaces
    an earlier one. *)
Definition bind_all (bs : list (string * value)) (ns : gmap string value)
    : gmap string value :=
  foldl (λ m b, <[b.1 := b.2]> m) ns bs.

(** The value the last binding of [x] in [bs] gives it. *)
Fixpoint bound_value (x : string) (bs : list (string * value)) : option value :=
  match bs with
  | [] => None
  | (y, v) :: rest =>
      match bound_value x rest with
      | Some v' => Some v'
      | None => if String.eqb y x then Some v else None
      end
  end.

(** ** Literals *)

(** Expressions built from constants by list, tuple and dict displays and
    parentheses alone: no name, attribute or call. *)
Fixpoint is_literal (e : expr) : bool :=
  match e with
  | ENone | EBool _ | EInt _ | EStr _ => true
  | EList items | EParen items _ => forallb is_literal items
  | EDict entries =>
      forallb (λ kv, is_literal kv.1 && is_literal kv.2) entries
  | EName _ | EAttr _ _ | ECall _ _ _ => false
  end.

(** Returning or raising without touching the state. *)
Definition inject {A : Type} (r : result A) : M A :=
  λ s, match r with Ok a => Ok (a, s) | Raise e => Raise e end.

(** The world with a shell that always succeeds and an empty namespace. *)
Definition plain_world : World := mkWorld (λ _, 0) ∅.

(** What a literal evaluates to: its evaluation in the plain world, with
    the state dropped. *)
Definition literal_result (e : expr) : result value :=
  match eval plain_world e (mkState ∅ []) with
  | Ok (v, _) => Ok v
  | Raise x => Raise x
  end.

(** ** Shapes of statements and of modules *)

Definition is_import (s : stmt) : bool :=
  match s with SImport _ | SImportFrom _ _ => true | _ => false end.

Definition is_literal_assignment (s : stmt) : bool :=
  match s with SAssign _ rhs => is_literal rhs | _ => false end.

(** An expression statement that calls [subprocess.call] on literal
    arguments. *)
Definition is_subprocess_call (s : stmt) : bool :=
  match s with
  | SExpr (ECall (EAttr (EName m) f) args keywords) =>
      String.eqb m "subprocess" && String.eqb f "call"
      && forallb is_literal args
      && forallb (λ kw, is_literal kw.2) keywords
  | _ => false
  end.

Definition is_definition (s : stmt) : bool :=
  match s with SFunctionDef _ _ _ | SClassDef _ _ _ => true | _ => false end.

Definition is_loop (s : stmt) : bool :=
  match s with SFor _ _ _ _ | SWhile _ _ _ => true | _ => false end.

Definition is_conditional (s : stmt) : bool :=
  match s with SIf _ _ _ => true | _ => false end.

Definition is_control_flow (s : stmt) : bool :=
  match s with
  | SIf _ _ _ | SFor _ _ _ _ | SWhile _ _ _ | STry _ _ _ | SWith _ _
  | SReturn _ | SRaise _ | SAssert _ | SBreak | SContinue => true
  | _ => false
  end.

(** A declarative statement is an import, an assignment of a literal, or a
    call of [subprocess.call]. *)
Definition declarative (s : stmt) : bool :=
  is_import s || is_literal_assignment s || is_subprocess_call s.

(** The bindings a block of literal assignments makes, in order; the
    first literal that raises (an unhashable dict key) ends it. *)
Fixpoint literal_bindings (body : list stmt) : result (list (string * value)) :=
  match body with
  | [] => Ok []
  | SAssign x rhs :: rest =>
      match literal_result rhs with
      | Ok v =>
          match literal_bindings rest with
          | Ok bs => Ok ((x, v) :: bs)
          | Raise e => Raise e
          end
      | Raise e => Raise e
      end
  | _ :: _ => Raise NotModelled
  end.

(** ** The module, split where the source splits it *)

(** The imports and the call of Doxygen (source lines 9 to 11). *)
Definition conf_prelude : list stmt := take 3 conf_py.

(** The configuration assignments (source lines 13 to 117). *)
Definition conf_assignments : list stmt := drop 3 conf_py.

(** The namespace after the imports. *)
Definition prelude_namespace (ns : gmap string value) : gmap string value :=
  <["os" := VModule "os"]>
    (<["subprocess" := VModule "subprocess"]>
      (<["StandaloneHTMLBuilder" :=
           VMember "sphinx.builders.html" "StandaloneHTMLBuilder"]> ns)).

(** The steps of the imports and the call. *)
Definition prelude_trace (w : World) : list event := [
  EvImport "sphinx.builders.html";
  EvImport "subprocess";
  EvImport "os";
  EvSpawn doxygen_command true (run_shell w doxygen_command)
].

(** The configuration the assignments produce: every assigned name with
    the object it is bound to, in source order. *)
Definition conf_bindings : list (string * value) := [
  ("project", VStr "hyperion::mpl");
  ("copyright", VStr "2024, Braxton Salyer <braxtonsalyer@gmail.com>");
  ("author", VStr "Braxton Salyer <braxtonsalyer@gmail.com>");
  ("extensions", VList [
     VStr "sphinx.ext.autodoc";
     VStr "sphinx.ext.autosummary";
     VStr "sphinx.ext.intersphinx";
     VStr "sphinx.ext.autosectionlabel";
     VStr "sphinx.ext.todo";
     VStr "sphinx.ext.coverage";
     VStr "sphinx.ext.mathjax";
     VStr "sphinx.ext.ifconfig";
     VStr "sphinx.ext.viewcode";
     VStr "sphinx.ext.inheritance_diagram";
     VStr "sphinx_sitemap";
     VStr "breathe";
     VStr "myst_parser"]);
  ("myst_enable_extensions", VList [
     VStr "amsmath";
     VStr "colon_fence";
     VStr "deflist";
     VStr "dollarmath";
     VStr "fieldlist";
     VStr "html_admonition";
     VStr "html_image";
     VStr "linkify";
     VStr "replacements";
     VStr "smartquotes";
     VStr "strikethrough";
     VStr "substitution";
     VStr "tasklist"]);
  ("templates_path", VList [VStr "_templates"]);
  ("exclude_patterns", VList [VStr "_build"; VStr "Thumbs.db"; VStr ".DS_Store"]);
  ("highlight_language", VStr "c++");
  ("autosummary_generate", VBool true);
  ("html_baseurl", VStr "braxtons12.github.io/hyperion_mpl");
  ("html_theme", VStr "pydata_sphinx_theme");
  ("html_theme_options", VDict [
     (VStr "github_url", VStr "https://github.com/braxtons12/hyperion_mpl");
     (VStr "header_links_before_dropdown", VInt 8);
     (VStr "show_toc_level", VInt 1);
     (VStr "navigation_depth", VInt 2);
     (VStr "show_nav_level", VInt 0);
     (VStr "pygment_light_style", VStr "manni");
     (VStr "pygment_dark_style", VStr "one-dark");
     (VStr "navbar_start", VList [VStr "navbar-logo"; VStr "theme-switcher"]);
     (VStr "navbar_center", VList [VStr "navbar-nav"]);
     (VStr "navbar_end", VList [VStr "navbar-icon-links"]);
     (VStr "secondary_sidebar_items", VList [VStr "page-toc"]);
     (VStr "footer_items",
        VList [VStr "copyright"; VStr "last-updated"; VStr "sphinx-version"])]);
  ("html_sidebars", VDict [
     (VStr "**", VList [VStr "search-field"; VStr "navbar-nav";
                        VStr "sidebar-nav-bs"; VStr "sidebar-ethical-ads"])]);
  ("html_context", VDict [(VStr "default_mode", VStr "dark")]);
  ("html_static_path", VList [VStr "_static"]);
  ("rst_prolog", VStr rst_prolog_text);
  ("breathe_projects", VDict [(VStr "hyperion::mpl", VStr "_build/xml")]);
  ("breathe_default_project", VStr "hyperion::mpl");
  ("breathe_default_members", VStr "members")
].

(** The names the module assigns. *)
Definition conf_names : list string := conf_bindings.*1.

(** The state in which evaluation of the module ends. *)
Definition final_state (w : World) : state :=
  mkState (bind_all conf_bindings (prelude_namespace (initial_namespace w)))
          (prelude_trace w ++ map assign_event conf_bindings).

(** The world [w], except that the shell returns [status] when asked to
    run Doxygen. *)
Definition doxygen_returns (status : Z) (w : World) : World :=
  mkWorld (λ cmd, if String.eqb cmd doxygen_command then status
                  else run_shell w cmd)
          (initial_namespace w).

(** The module with [subprocess.check_call] in the place of
    [subprocess.call]: the variant that would abort on a failing tool. *)
Definition conf_py_checked : list stmt :=
  SImportFrom "sphinx.builders.html" ["StandaloneHTMLBuilder"]
  :: SImport ["subprocess"; "os"]
  :: SExpr (ECall (EAttr (EName "subprocess") "check_call")
                  [EStr doxygen_command] [("shell", EBool true)])
  :: conf_assignments.

(** ** Kinds of values *)

Definition is_str (v : value) : bool :=
  match v with VStr _ => true | _ => false end.

Definition is_bool (v : value) : bool :=
  match v with VBool _ => true | _ => false end.

Definition is_dict (v : value) : bool :=
  match v with VDict _ => true | _ => false end.

Definition is_tuple (v : value) : bool :=
  match v with VTuple _ => true | _ => false end.

Definition is_str_list (v : value) : bool :=
  match v with VList items => forallb is_str items | _ => false end.

(** The kinds the claim about configuration values names ... *)
Definition str_or_dict (v : value) : bool := is_str v || is_dict v.

(** ... and the kinds the module assigns. *)
Definition config_kind (v : value) : bool :=
  is_str v || is_dict v || is_str_list v || is_bool v.

(** [k in d] for a dict object. *)
Definition dict_has (d : list (value * value)) (k : value) : bool :=
  existsb (value_eqb k) (dict_keys d).

(** A computation is pure when its outcome depends neither on the world
    nor on the state, and it leaves the state as it found it. *)
Definition pure {A : Type} (m : World → M A) : Prop :=
  ∃ r : result A, ∀ w s, m w s = inject r s.

(** ** Names bound and names read *)

(** The names the two import statements bind, in source order. *)
Definition imported_names : list string :=
  ["StandaloneHTMLBuilder"; "subprocess"; "os"].

(** The names an expression reads when it is evaluated. *)
Fixpoint expr_reads (e : expr) : list string :=
  match e with
  | ENone | EBool _ | EInt _ | EStr _ => []
  | EName id => [id]
  | EAttr obj _ => expr_reads obj
  | EList items | EParen items _ => flat_map expr_reads items
  | EDict entries =>
      flat_map (λ kv, expr_reads kv.1 ++ expr_reads kv.2) entries
  | ECall func args keywords =>
      expr_reads func ++ flat_map expr_reads args
      ++ flat_map (λ kw, expr_reads kw.2) keywords
  end.

(** The names a simple statement reads; compound statements are not
    looked into. *)
Definition stmt_reads (s : stmt) : option (list string) :=
  match s with
  | SImport _ | SImportFrom _ _ | SPass => Some []
  | SAssign _ rhs => Some (expr_reads rhs)
  | SExpr e => Some (expr_reads e)
  | _ => None
  end.

(** The statements of the module after its imports (source lines 11 to
    117): the call of Doxygen and the assignments. *)
Definition conf_body : list stmt := drop 2 conf_py.

(** The assignments of a block whose right-hand side is a dict display,
    with the display's entries. *)
Definition dict_displays (body : list stmt)
    : list (string * list (expr * expr)) :=
  omap (λ s, match s with
             | SAssign x (EDict entries) => Some (x, entries)
             | _ => None
             end) body.

(** Plain data: strings, integers and booleans, and lists and
    string-keyed dicts of plain data.  [None], a tuple, and a module,
    function or class object are not. *)
Fixpoint plain_data (v : value) : bool :=
  match v with
  | VBool _ | VInt _ | VStr _ => true
  | VList items => forallb plain_data items
  | VDict entries =>
      forallb (λ kv, is_str kv.1 && plain_data kv.2) entries
  | VNone | VTuple _ | VModule _ | VMember _ _ => false
  end.

(** A host in the manner of Sphinx, which presets [__file__] and [tags]
    in the namespace before it runs the module; here Doxygen fails. *)
Definition host_world : World :=
  mkWorld (λ _, 1)
          (<["__file__" := VStr "docs/conf.py"]>
             (<["tags" := VMember "sphinx.util.tags" "Tags"]> ∅)).

(** ** A host that can fail *)

(** [run_module] takes the imports and the start of the shell for granted.
    A host need not grant them: its import system may not find a module,
    and it may be unable to start a shell.  [importable] says which
    modules the import system finds (a module that is found is taken to
    be the genuine one, with the members the module names);
    [shell_starts] says whether a shell process can be started. *)
Record Host : Type := mkHost {
  host_env : World;
  importable : string → bool;
  shell_starts : bool
}.

Section HostSemantics.
Variable h : Host.

(** [import m] raises [ImportError] when [m] is not found. *)
Definition host_import_module (name : string) : M unit :=
  if importable h name then import_module name
  else raise (ImportError name).

(** [subprocess.call] and [subprocess.check_call] raise [OSError] when the
    shell cannot be started; once it has started they behave as
    [subprocess_run] says. *)
Definition host_subprocess_run (check : bool) (args : list value)
    (keywords : list (string * value)) : M value :=
  match args, keywords with
  | [VStr cmd], [(kw, sh)] =>
      if String.eqb kw "shell" && truthy sh then
        if shell_starts h
        then subprocess_run (host_env h) check args keywords
        else raise (OSError cmd)
      else raise NotModelled
  | _, _ => raise NotModelled
  end.

Definition host_call (f : value) (args : list value)
    (keywords : list (string * value)) : M value :=
  match f with
  | VMember m n =>
      if String.eqb m "subprocess" && String.eqb n "call"
      then host_subprocess_run false args keywords
      else if String.eqb m "subprocess" && String.eqb n "check_call"
      then host_subprocess_run true args keywords
      else raise NotModelled
  | _ => raise TypeError
  end.

Fixpoint host_eval (e : expr) : M value :=
  match e with
  | ENone => mret VNone
  | EBool b => mret (VBool b)
  | EInt n => mret (VInt n)
  | EStr s => mret (VStr s)
  | EName id => lookup_name id
  | EAttr obj attr => o ← host_eval obj; get_attr o attr
  | EList items => vs ← eval_each host_eval items; mret (VList vs)
  | EParen [item] false => host_eval item
  | EParen items _ => vs ← eval_each host_eval items; mret (VTuple vs)
  | EDict entries =>
      kvs ← eval_each (λ '(k, v), kv ← host_eval k; vv ← host_eval v;
                                  mret (kv, vv))
                      entries;
      build_dict [] kvs
  | ECall func args keywords =>
      f ← host_eval func;
      avs ← eval_each host_eval args;
      kvs ← eval_each (λ '(kw, a), av ← host_eval a; mret (kw, av)) keywords;
      host_call f avs kvs
  end.

(** [from m import ...] raises [ImportError] when [m] is not found. *)
Definition host_exec (s : stmt) : M unit :=
  match s with
  | SImport modules => eval_each host_import_module modules;; mret tt
  | SImportFrom module names =>
      if importable h module
      then emit (EvImport module);;
           eval_each (import_from module) names;; mret tt
      else raise (ImportError module)
  | SAssign target rhs => v ← host_eval rhs; assign target v
  | SExpr e => host_eval e;; mret tt
  | SPass => mret tt
  | _ => raise NotModelled
  end.

Fixpoint host_exec_block (body : list stmt) : M unit :=
  match body with
  | [] => mret tt
  | s :: rest => host_exec s;; host_exec_block rest
  end.

Definition host_run (body : list stmt) : result state :=
  match host_exec_block body (mkState (initial_namespace (host_env h)) []) with
  | Ok (_, s) => Ok s
  | Raise e => Raise e
  end.

End HostSemantics.

Arguments host_run h body : simpl never.

(** The modules a block imports, in order. *)
Definition imported_modules (body : list stmt) : list string :=
  flat_map (λ s, match s with
                 | SImport modules => modules
                 | SImportFrom module _ => [module]
                 | _ => []
                 end) body.

(** A host on which the module's three imports succeed and the shell
    starts. *)
Definition host_sound (h : Host) : bool :=
  importable h "sphinx.builders.html" && importable h "subprocess"
  && importable h "os" && shell_starts h.

(** The exceptions a host inflicts: a failed import, a shell that does not
    start. *)
Definition host_fault (e : exn) : bool :=
  match e with ImportError _ | OSError _ => true | _ => false end.

(** The host [h], except that Doxygen returns [status]. *)
Definition host_doxygen_returns (status : Z) (h : Host) : Host :=
  mkHost (doxygen_returns status (host_env h)) (importable h) (shell_starts h).

(** A Python without Sphinx installed, in which Doxygen would succeed. *)
Definition bare_host : Host :=
  mkHost plain_world (λ m, negb (String.eqb m "sphinx.builders.html")) true.

(** * Properties *)

(** ** Induction on expressions, through the lists they nest *)

Lemma expr_nested_ind (P : expr → Prop) :
  P ENone →
  (∀ b, P (EBool b)) →
  (∀ n, P (EInt n)) →
  (∀ s, P (EStr s)) →
  (∀ id, P (EName id)) →
  (∀ obj attr, P obj → P (EAttr obj attr)) →
  (∀ items, Forall P items → P (EList items)) →
  (∀ items comma, Forall P items → P (EParen items comma)) →
  (∀ entries, Forall (λ kv, P kv.1 ∧ P kv.2) entries → P (EDict entries)) →
  (∀ func args keywords,
     P func → Forall P args → Forall (λ kw, P kw.2) keywords →
     P (ECall func args keywords)) →
  ∀ e, P e.
Proof.
  intros HNone HBool HInt HStr HName HAttr HList HParen HDict HCall.
  fix IH 1. intros e.
  assert (Hall : ∀ items, Forall P items).
  { fix IHs 1. intros [|x xs]; constructor; [apply IH | apply IHs]. }
  destruct e as [ | | | | | obj attr | items | items comma | entries
                | func args keywords ].
  - exact HNone.
  - apply HBool.
  - apply HInt.
  - apply HStr.
  - apply HName.
  - apply HAttr, IH.
  - apply HList, Hall.
  - apply HParen, Hall.
  - apply HDict.
    revert entries. fix IHs 1.
    intros [|[k v] rest]; constructor; [split; apply IH | apply IHs].
  - apply HCall; [apply IH | apply Hall |].
    revert keywords. fix IHs 1.
    intros [|[kw a] rest]; constructor; [apply IH | apply IHs].
Qed.

(** ** The monad *)

Lemma bind_ok {A B : Type} (m : M A) (k : A → M B) s a s' :
  m s = Ok (a, s') → (m ≫= k) s = k a s'.
Proof. intros H. unfold mbind, M_bind. by rewrite H. Qed.

Lemma bind_raise {A B : Type} (m : M A) (k : A → M B) s e :
  m s = Raise e → (m ≫= k) s = Raise e.
Proof. intros H. unfold mbind, M_bind. by rewrite H. Qed.

Lemma exec_block_app w (b1 b2 : list stmt) s :
  exec_block w (b1 ++ b2) s =
  match exec_block w b1 s with
  | Ok (_, s') => exec_block w b2 s'
  | Raise e => Raise e
  end.
Proof.
  revert s. induction b1 as [|st b1 IH]; intros s; [done|].
  cbn [exec_block app]. unfold mbind, M_bind.
  destruct (exec w st s) as [[[] s1]|e]; [apply IH | done].
Qed.

(** ** Purity of literals *)

Lemma pure_ret {A : Type} (a : A) : pure (λ _, mret a).
Proof. by exists (Ok a). Qed.

Lemma pure_raise {A : Type} (e : exn) : pure (λ _, raise (A:=A) e).
Proof. by exists (Raise e). Qed.

Lemma pure_bind {A B : Type} (m : World → M A) (k : A → World → M B) :
  pure m → (∀ a, pure (k a)) → pure (λ w, m w ≫= λ a, k a w).
Proof.
  intros [[a|e] Hm] Hk.
  - destruct (Hk a) as [r Hr]. exists r. intros w s.
    rewrite (bind_ok _ _ s a s) by apply Hm. apply Hr.
  - exists (Raise e). intros w s. apply bind_raise, Hm.
Qed.

Lemma pure_eval_each {A B : Type} (f : World → A → M B) (items : list A) :
  Forall (λ x, pure (λ w, f w x)) items →
  pure (λ w, eval_each (f w) items).
Proof.
  induction 1 as [|x rest Hx _ IH]; cbn [eval_each].
  - apply pure_ret.
  - apply (pure_bind (λ w, f w x)
             (λ v w, eval_each (f w) rest ≫= λ vs, mret (v :: vs))); [done|].
    intros v. apply (pure_bind _ (λ vs _, mret (v :: vs))); [done|].
    intros vs. apply pure_ret.
Qed.

Lemma pure_build_dict (acc entries : list (value * value)) :
  pure (λ _, build_dict acc entries).
Proof.
  revert acc. induction entries as [|[k v] rest IH]; intros acc; cbn [build_dict].
  - apply pure_ret.
  - destruct (hashable k); [apply IH | apply pure_raise].
Qed.

(** A literal evaluates without reading the world or the state. *)
Lemma literal_pure (e : expr) : is_literal e = true → pure (λ w, eval w e).
Proof.
  induction e as [ | b | n | s | id | obj attr _ | items IH | items comma IH
                 | entries IH | func args keywords _ _ _ ]
    using expr_nested_ind; cbn [is_literal]; intros Hlit; try done.
  - apply pure_ret.
  - apply pure_ret.
  - apply pure_ret.
  - apply pure_ret.
  - assert (Hitems : pure (λ w, eval_each (eval w) items)).
    { apply pure_eval_each. rewrite Forall_forall in IH |- *.
      intros x Hx. apply IH; [done|].
      rewrite forallb_forall in Hlit. by apply Hlit, list_elem_of_In. }
    cbn [eval]. apply (pure_bind _ (λ vs _, mret (VList vs))); [done|].
    intros vs. apply pure_ret.
  - assert (Hitems : pure (λ w, eval_each (eval w) items)).
    { apply pure_eval_each. rewrite Forall_forall in IH |- *.
      intros x Hx. apply IH; [done|].
      rewrite forallb_forall in Hlit. by apply Hlit, list_elem_of_In. }
    assert (Htuple : pure (λ w, eval_each (eval w) items ≫= λ vs, mret (VTuple vs))).
    { apply (pure_bind _ (λ vs _, mret (VTuple vs))); [done|].
      intros vs. apply pure_ret. }
    destruct items as [|item [|item' rest]]; [exact Htuple | | exact Htuple].
    destruct comma; [exact Htuple|].
    cbn [eval]. apply Forall_inv in IH. apply IH.
    cbn [forallb] in Hlit. by destruct (is_literal item).
  - cbn [eval].
    apply (pure_bind _ (λ kvs _, build_dict [] kvs)).
    + apply (pure_eval_each
               (λ w '(k, v), kv ← eval w k; vv ← eval w v; mret (kv, vv))).
      rewrite Forall_forall in IH |- *. intros [k v] Hkv.
      destruct (IH _ Hkv) as [IHk IHv].
      rewrite forallb_forall in Hlit.
      apply list_elem_of_In, Hlit, andb_true_iff in Hkv as [Hk Hv].
      apply (pure_bind _ (λ kv w, vv ← eval w v; mret (kv, vv))); [by apply IHk|].
      intros kv. apply (pure_bind _ (λ vv _, mret (kv, vv))); [by apply IHv|].
      intros vv. apply pure_ret.
    + intros kvs. apply pure_build_dict.
Qed.

Lemma literal_eval (e : expr) w s :
  is_literal e = true → eval w e s = inject (literal_result e) s.
Proof.
  intros Hlit. destruct (literal_pure e Hlit) as [r Hr].
  unfold literal_result. rewrite !Hr. by destruct r.
Qed.

(** ** Blocks of literal assignments *)

Lemma lookup_bind_all bs (ns : gmap string value) x :
  bind_all bs ns !! x =
  match bound_value x bs with
  | Some v => Some v
  | None => ns !! x
  end.
Proof.
  revert ns. induction bs as [|[y v] rest IH]; intros ns; [done|].
  change (bind_all ((y, v) :: rest) ns) with (bind_all rest (<[y := v]> ns)).
  rewrite IH. cbn [bound_value].
  destruct (bound_value x rest) as [v'|]; [done|].
  destruct (String.eqb_spec y x) as [->|Hne].
  - apply lookup_insert_eq.
  - by apply lookup_insert_ne.
Qed.

Lemma exec_assign_literal w x rhs v s :
  is_literal rhs = true → literal_result rhs = Ok v →
  exec w (SAssign x rhs) s =
  Ok (tt, mkState (<[x := v]> (globals s)) (trace s ++ [EvAssign x v])).
Proof.
  intros Hlit Hv. cbn [exec].
  rewrite (bind_ok _ _ s v s); [done|].
  by rewrite literal_eval, Hv.
Qed.

Lemma exec_assign_literal_raise w x rhs e s :
  is_literal rhs = true → literal_result rhs = Raise e →
  exec w (SAssign x rhs) s = Raise e.
Proof.
  intros Hlit He. cbn [exec]. apply bind_raise.
  by rewrite literal_eval, He.
Qed.

(** A block of literal assignments makes its bindings in order, logs one
    assignment step for each, and does nothing else, in every world. *)
Lemma exec_literal_assignments w (body : list stmt) s :
  forallb is_literal_assignment body = true →
  exec_block w body s =
  match literal_bindings body with
  | Ok bs =>
      Ok (tt, mkState (bind_all bs (globals s))
                      (trace s ++ map assign_event bs))
  | Raise e => Raise e
  end.
Proof.
  revert s. induction body as [|st rest IH]; intros s Hall.
  - cbn. rewrite app_nil_r. by destruct s.
  - cbn [forallb] in Hall. apply andb_true_iff in Hall as [Hst Hrest].
    destruct st; try discriminate Hst. cbn [is_literal_assignment] in Hst.
    cbn [exec_block literal_bindings].
    destruct (literal_result rhs) as [v|e] eqn:Hv.
    + rewrite (bind_ok _ _ s tt _ (exec_assign_literal w target rhs v s Hst Hv)).
      rewrite IH by done. cbn [globals trace].
      destruct (literal_bindings rest) as [bs|e]; [|done].
      cbn [map]. by rewrite <- app_assoc.
    + apply bind_raise. by apply exec_assign_literal_raise.
Qed.

(** ** The module's evaluation *)

Lemma conf_py_split : conf_py = conf_prelude ++ conf_assignments.
Proof. reflexivity. Qed.

Lemma conf_assignments_literal :
  forallb is_literal_assignment conf_assignments = true.
Proof. reflexivity. Qed.

Lemma conf_assignments_bindings :
  literal_bindings conf_assignments = Ok conf_bindings.
Proof. vm_compute. reflexivity. Qed.

Lemma lookup_name_bound x v s :
  globals s !! x = Some v → lookup_name x s = Ok (v, s).
Proof. intros H. unfold lookup_name. by rewrite H. Qed.

(** The call of [subprocess.call] returns the shell's exit status, whatever
    it is, and logs one spawn step. *)
Lemma eval_subprocess_call w cmd s :
  globals s !! "subprocess" = Some (VModule "subprocess") →
  eval w (ECall (EAttr (EName "subprocess") "call")
                [EStr cmd] [("shell", EBool true)]) s =
  Ok (VInt (run_shell w cmd),
      mkState (globals s) (trace s ++ [EvSpawn cmd true (run_shell w cmd)])).
Proof.
  intros Hsub. cbn [eval eval_each].
  rewrite (bind_ok _ _ s (VMember "subprocess" "call") s).
  - reflexivity.
  - rewrite (bind_ok _ _ s (VModule "subprocess") s); [done|].
    by apply lookup_name_bound.
Qed.

(** [subprocess.check_call] raises on a non-zero status. *)
Lemma eval_subprocess_check_call w cmd s :
  globals s !! "subprocess" = Some (VModule "subprocess") →
  run_shell w cmd ≠ 0 →
  eval w (ECall (EAttr (EName "subprocess") "check_call")
                [EStr cmd] [("shell", EBool true)]) s =
  Raise (CalledProcessError (run_shell w cmd) cmd).
Proof.
  intros Hsub Hstatus. cbn [eval eval_each].
  rewrite (bind_ok _ _ s (VMember "subprocess" "check_call") s).
  - apply Z.eqb_neq in Hstatus. cbv -[Z.eqb run_shell]. by rewrite Hstatus.
  - rewrite (bind_ok _ _ s (VModule "subprocess") s); [done|].
    by apply lookup_name_bound.
Qed.

Lemma imports_run w ns :
  exec_block w (take 2 conf_py) (mkState ns []) =
  Ok (tt, mkState (prelude_namespace ns)
                  [EvImport "sphinx.builders.html"; EvImport "subprocess";
                   EvImport "os"]).
Proof. reflexivity. Qed.

Lemma prelude_namespace_subprocess ns :
  prelude_namespace ns !! "subprocess" = Some (VModule "subprocess").
Proof.
  unfold prelude_namespace.
  rewrite lookup_insert_ne by done. apply lookup_insert_eq.
Qed.

Lemma prelude_runs w ns :
  exec_block w conf_prelude (mkState ns []) =
  Ok (tt, mkState (prelude_namespace ns) (prelude_trace w)).
Proof.
  change conf_prelude with (take 2 conf_py ++ drop 2 conf_prelude).
  rewrite exec_block_app, imports_run.
  set (s := mkState (prelude_namespace ns) _).
  cbn [drop conf_prelude take conf_py exec_block exec].
  pose proof (eval_subprocess_call w doxygen_command s
                (prelude_namespace_subprocess ns)) as Hcall.
  rewrite (bind_ok _ _ s tt (mkState (prelude_namespace ns) (prelude_trace w)));
    [done|].
  by rewrite (bind_ok _ _ _ _ _ Hcall).
Qed.

(** Evaluation of the module completes, in every world, in [final_state]. *)
Lemma conf_py_runs w : run_module w conf_py = Ok (final_state w).
Proof.
  unfold run_module. rewrite conf_py_split, exec_block_app, prelude_runs.
  rewrite exec_literal_assignments by apply conf_assignments_literal.
  by rewrite conf_assignments_bindings.
Qed.

(** ** Reading the final state *)

Lemma final_lookup w x :
  globals (final_state w) !! x =
  match bound_value x conf_bindings with
  | Some v => Some v
  | None => prelude_namespace (initial_namespace w) !! x
  end.
Proof. apply lookup_bind_all. Qed.

Lemma assignments_app t1 t2 :
  assignments (t1 ++ t2) = assignments t1 ++ assignments t2.
Proof. apply omap_app. Qed.

Lemma assignments_assign_events bs : assignments (map assign_event bs) = bs.
Proof.
  induction bs as [|[x v] bs IH]; [done|].
  cbn. unfold assignments in IH. by rewrite IH.
Qed.

Lemma spawns_app t1 t2 : spawns (t1 ++ t2) = spawns t1 ++ spawns t2.
Proof. apply omap_app. Qed.

Lemma spawns_assign_events bs : spawns (map assign_event bs) = [].
Proof. by induction bs as [|[x v] bs IH]. Qed.

Lemma final_assignments w : assignments (trace (final_state w)) = conf_bindings.
Proof.
  unfold final_state. cbn [trace].
  by rewrite assignments_app, assignments_assign_events.
Qed.

Lemma final_spawns w :
  spawns (trace (final_state w)) =
  [(doxygen_command, true, run_shell w doxygen_command)].
Proof.
  unfold final_state. cbn [trace].
  by rewrite spawns_app, spawns_assign_events.
Qed.

(** A name bound in a run of bindings has, afterwards, the value of its
    last binding, whatever the namespace held before. *)
Lemma bound_value_is_Some x bs : x ∈ bs.*1 → is_Some (bound_value x bs).
Proof.
  induction bs as [|[y v] rest IH]; cbn [fmap list_fmap fst bound_value].
  - by intros ?%elem_of_nil.
  - intros [->|Hin]%elem_of_cons.
    + destruct (bound_value y rest); [done|]. by rewrite String.eqb_refl.
    + destruct (IH Hin) as [v' ->]. done.
Qed.

Lemma lookup_bind_all_bound bs (ns : gmap string value) x :
  x ∈ bs.*1 → bind_all bs ns !! x = bound_value x bs.
Proof.
  intros [v Hv]%bound_value_is_Some. by rewrite lookup_bind_all, Hv.
Qed.

(** In a trace that splits around a spawn step, with no assignment before
    it and no other spawn, the spawn comes strictly before every
    assignment. *)
Lemma split_precedes (before after : list event) (ev e1 e2 : event) i j :
  is_spawn_event ev = true →
  forallb (λ e, negb (is_assign_event e)) before = true →
  forallb (λ e, negb (is_spawn_event e)) (before ++ after) = true →
  (before ++ ev :: after) !! i = Some e1 → is_spawn_event e1 = true →
  (before ++ ev :: after) !! j = Some e2 → is_assign_event e2 = true →
  (i < j)%nat.
Proof.
  intros Hev Hbefore Hunique Hi Hspawn Hj Hassign.
  rewrite forallb_forall in Hbefore, Hunique.
  assert (Hi' : i = length before).
  { destruct (Nat.lt_trichotomy i (length before)) as [Hlt|[->|Hgt]]; [|done|].
    - rewrite lookup_app_l in Hi by done.
      apply list_elem_of_lookup_2, list_elem_of_In in Hi.
      specialize (Hunique e1). rewrite in_app_iff in Hunique.
      rewrite Hspawn in Hunique. by specialize (Hunique (or_introl Hi)).
    - rewrite lookup_app_r in Hi by lia.
      destruct (i - length before)%nat as [|k] eqn:Hk; [lia|].
      cbn in Hi. apply list_elem_of_lookup_2, list_elem_of_In in Hi.
      specialize (Hunique e1). rewrite in_app_iff in Hunique.
      rewrite Hspawn in Hunique. by specialize (Hunique (or_intror Hi)). }
  subst i.
  destruct (Nat.lt_trichotomy j (length before)) as [Hlt|[->|Hgt]]; [| |done].
  - rewrite lookup_app_l in Hj by done.
    apply list_elem_of_lookup_2, list_elem_of_In, Hbefore in Hj.
    by rewrite Hassign in Hj.
  - rewrite lookup_app_r, Nat.sub_diag in Hj by lia.
    cbn in Hj. injection Hj as <-. by destruct ev.
Qed.

(** By position: in an evaluation of the module, a shell-out step has a
    smaller index than any assignment step. *)
Lemma doxygen_index_before_assignments w st (i j : nat) (e1 e2 : event) :
  run_module w conf_py = Ok st →
  trace st !! i = Some e1 → is_spawn_event e1 = true →
  trace st !! j = Some e2 → is_assign_event e2 = true →
  (i < j)%nat.
Proof.
  rewrite conf_py_runs. intros [= <-].
  change (trace (final_state w))
    with ([EvImport "sphinx.builders.html"; EvImport "subprocess";
           EvImport "os"]
          ++ EvSpawn doxygen_command true (run_shell w doxygen_command)
          :: map assign_event conf_bindings).
  by apply split_precedes.
Qed.

Lemma not_import_assign_events bs :
  List.filter (λ ev, negb (is_import_event ev)) (map assign_event bs) =
  map assign_event bs.
Proof. induction bs as [|[x v] bs IH]; [done|]. cbn. by rewrite IH. Qed.

(** ** The values the module assigns *)

(** The names whose value is neither a string nor a dictionary. *)
Example not_str_or_dict :
  (filter (λ b, negb (str_or_dict b.2)) conf_bindings).*1 =
  ["extensions"; "myst_enable_extensions"; "templates_path";
   "exclude_patterns"; "autosummary_generate"; "html_static_path"].
Proof. reflexivity. Qed.

(** C1, as stated, fails: in the plain world the module assigns a list to
    [extensions] (and to four more names) and a boolean to
    [autosummary_generate], so not every assigned value is a string or a
    dictionary. *)
Lemma assigned_values_not_all_str_or_dict :
  ¬ (∃ st, run_module plain_world conf_py = Ok st ∧
           forallb (λ b, str_or_dict b.2) (assignments (trace st)) = true).
Proof.
  intros (st & Hrun & Hall).
  rewrite conf_py_runs in Hrun. injection Hrun as <-.
  rewrite final_assignments in Hall. discriminate Hall.
Qed.

(** C1 (amended): in every world, evaluation of the module completes; its
    steps, the imports aside, are one shell-out to Doxygen followed by
    assignments; the namespace it leaves is the host's with the three
    imported names and the assigned names bound on top; and every value it
    assigns is a string, a dictionary, a list of strings or a boolean. *)
Theorem conf_py_behaviour (w : World) :
  ∃ st, run_module w conf_py = Ok st ∧
        List.filter (λ ev, negb (is_import_event ev)) (trace st) =
          EvSpawn "doxygen Doxyfile" true (run_shell w "doxygen Doxyfile")
          :: map assign_event (assignments (trace st)) ∧
        globals st =
          bind_all (assignments (trace st))
                   (prelude_namespace (initial_namespace w)) ∧
        forallb (λ b, config_kind b.2) (assignments (trace st)) = true.
Proof.
  exists (final_state w). split; [apply conf_py_runs|].
  rewrite final_assignments. split; [|split]; [ | reflexivity | reflexivity].
  unfold final_state, prelude_trace. cbn [trace app List.filter is_import_event negb].
  rewrite not_import_assign_events. reflexivity.
Qed.

(** ** The call of Doxygen *)

(** C2: in every world, evaluation of the module starts exactly one
    process: the command "doxygen Doxyfile", handed to the shell. *)
Theorem one_subprocess (w : World) :
  ∃ st, run_module w conf_py = Ok st ∧
        spawns (trace st) =
          [("doxygen Doxyfile", true, run_shell w "doxygen Doxyfile")].
Proof.
  exists (final_state w). split; [apply conf_py_runs | apply final_spawns].
Qed.

(** With [subprocess.check_call] in the place of [subprocess.call] a
    failing Doxygen would abort the evaluation: the module's choice of
    [call] is what makes the exit status immaterial. *)
Lemma checked_variant_raises (w : World) :
  run_shell w doxygen_command ≠ 0 →
  run_module w conf_py_checked =
  Raise (CalledProcessError (run_shell w doxygen_command) doxygen_command).
Proof.
  intros Hstatus. unfold run_module, conf_py_checked.
  generalize conf_assignments. intros rest.
  change (?a :: ?b :: ?c :: rest) with (take 2 conf_py ++ c :: rest).
  rewrite exec_block_app, imports_run.
  cbn [exec_block exec].
  rewrite (bind_raise _ _ _
             (CalledProcessError (run_shell w doxygen_command) doxygen_command));
    [reflexivity|].
  apply bind_raise, eval_subprocess_check_call; [|exact Hstatus].
  cbn [globals]. apply prelude_namespace_subprocess.
Qed.

(** ** The shape of the module *)

(** A declarative statement is neither a definition nor control flow. *)
Lemma declarative_plain (s : stmt) :
  declarative s = true →
  is_definition s = false ∧ is_control_flow s = false ∧
  is_loop s = false ∧ is_conditional s = false.
Proof. by destruct s. Qed.

Lemma declarative_block_plain (body : list stmt) :
  forallb declarative body = true →
  existsb is_definition body = false ∧ existsb is_control_flow body = false ∧
  existsb is_loop body = false ∧ existsb is_conditional body = false.
Proof.
  induction body as [|s rest IH]; [done|].
  cbn [forallb existsb]. intros [Hs Hrest]%andb_true_iff.
  destruct (declarative_plain s Hs) as (-> & -> & -> & ->).
  by apply IH.
Qed.

(** C4: the module defines no function and no class and has no loop, no
    conditional and no other control flow; each of its top-level
    statements is an import, an assignment of a literal, or a call of
    [subprocess.call], and there is one such call, the one of Doxygen. *)
Theorem conf_py_declarative :
  forallb declarative conf_py = true ∧
  existsb is_definition conf_py = false ∧
  existsb is_control_flow conf_py = false ∧
  existsb is_loop conf_py = false ∧
  existsb is_conditional conf_py = false ∧
  List.filter is_subprocess_call conf_py =
    [SExpr (ECall (EAttr (EName "subprocess") "call")
                  [EStr "doxygen Doxyfile"] [("shell", EBool true)])] ∧
  length (List.filter is_import conf_py) = 2%nat ∧
  length (List.filter is_literal_assignment conf_py) = 19%nat ∧
  length conf_py = 22%nat.
Proof.
  assert (Hdecl : forallb declarative conf_py = true) by reflexivity.
  destruct (declarative_block_plain conf_py Hdecl) as (Hdef & Hflow & Hloop & Hif).
  repeat split; try assumption; reflexivity.
Qed.

(** ** Configuration values *)

(** C5: after evaluation, in every world, [project] is the string
    "hyperion::mpl". *)
Theorem project_name (w : World) :
  ∃ st, run_module w conf_py = Ok st ∧
        globals st !! "project" = Some (VStr "hyperion::mpl").
Proof.
  exists (final_state w). split; [apply conf_py_runs|].
  rewrite final_lookup. reflexivity.
Qed.

(** C6: after evaluation, in every world, the list [extensions] contains
    "breathe" and the dict [breathe_projects] maps "hyperion::mpl" to
    "_build/xml". *)
Theorem breathe_configured (w : World) :
  ∃ st extensions projects,
    run_module w conf_py = Ok st ∧
    globals st !! "extensions" = Some (VList extensions) ∧
    VStr "breathe" ∈ extensions ∧
    globals st !! "breathe_projects" = Some (VDict projects) ∧
    dict_get projects (VStr "hyperion::mpl") = Some (VStr "_build/xml").
Proof.
  exists (final_state w).
  destruct (bound_value "extensions" conf_bindings) as [[]|] eqn:Hext;
    try discriminate Hext.
  destruct (bound_value "breathe_projects" conf_bindings) as [[]|] eqn:Hprj;
    try discriminate Hprj.
  exists items, entries. split; [apply conf_py_runs|].
  rewrite !final_lookup, Hext, Hprj.
  injection Hext as <-. injection Hprj as <-.
  repeat split. apply list_elem_of_In. cbn. tauto.
Qed.

(** C7: in every world the steps of the evaluation split around the
    shell-out to Doxygen: no assignment comes before it, no other
    shell-out comes after it, and the assignments of [breathe_projects]
    and [breathe_default_project], like every other assignment, come
    after it. *)
Theorem doxygen_before_assignments (w : World) :
  ∃ st before after,
    run_module w conf_py = Ok st ∧
    trace st = before
               ++ EvSpawn "doxygen Doxyfile" true (run_shell w "doxygen Doxyfile")
               :: after ∧
    forallb (λ ev, negb (is_assign_event ev)) before = true ∧
    forallb (λ ev, negb (is_spawn_event ev)) (before ++ after) = true ∧
    assignments after = assignments (trace st) ∧
    EvAssign "breathe_projects"
             (VDict [(VStr "hyperion::mpl", VStr "_build/xml")]) ∈ after ∧
    EvAssign "breathe_default_project" (VStr "hyperion::mpl") ∈ after.
Proof.
  exists (final_state w),
         [EvImport "sphinx.builders.html"; EvImport "subprocess"; EvImport "os"],
         (map assign_event conf_bindings).
  split; [apply conf_py_runs|].
  split; [reflexivity|]. split; [reflexivity|]. split; [reflexivity|].
  split; [by rewrite final_assignments, assignments_assign_events|].
  split; apply list_elem_of_In; cbn; tauto.
Qed.

(** C8: after evaluation, in every world, [breathe_default_project] is
    "hyperion::mpl" and that string is a key of the dict
    [breathe_projects]. *)
Theorem default_project_configured (w : World) :
  ∃ st key projects,
    run_module w conf_py = Ok st ∧
    globals st !! "breathe_default_project" = Some key ∧
    key = VStr "hyperion::mpl" ∧
    globals st !! "breathe_projects" = Some (VDict projects) ∧
    dict_has projects key = true ∧
    is_Some (dict_get projects key).
Proof.
  exists (final_state w), (VStr "hyperion::mpl"),
         [(VStr "hyperion::mpl", VStr "_build/xml")].
  split; [apply conf_py_runs|].
  rewrite !final_lookup. repeat split; try reflexivity. by eexists.
Qed.

(** ** Parentheses *)

(** Parentheses around one expression, without a comma, change nothing. *)
Lemma eval_paren_single w (e : expr) s :
  eval w (EParen [e] false) s = eval w e s.
Proof. reflexivity. Qed.

(** With a trailing comma the same parentheses make a tuple of one. *)
Lemma eval_paren_comma w (e : expr) s :
  eval w (EParen [e] true) s =
  (v ← eval w e; mret (VTuple [v])) s.
Proof.
  cbn [eval eval_each]. unfold mbind, M_bind, mret, M_ret.
  by destruct (eval w e s) as [[v s']|x].
Qed.

(** C9: the right-hand side of the assignment to [breathe_default_members]
    is the parenthesised string ('members') without a trailing comma; it
    evaluates to the string "members", and after evaluation of the module,
    in every world, [breathe_default_members] is that string and not a
    tuple. *)
Theorem default_members_is_string (w : World) :
  ∃ st v,
    last conf_py = Some (SAssign "breathe_default_members"
                                 (EParen [EStr "members"] false)) ∧
    (∀ s, eval w (EParen [EStr "members"] false) s = Ok (VStr "members", s)) ∧
    run_module w conf_py = Ok st ∧
    globals st !! "breathe_default_members" = Some v ∧
    v = VStr "members" ∧
    is_str v = true ∧ is_tuple v = false.
Proof.
  exists (final_state w), (VStr "members").
  split; [reflexivity|]. split; [reflexivity|].
  split; [apply conf_py_runs|].
  rewrite final_lookup. repeat split.
Qed.

(** ** Determinism *)

(** C10: any two evaluations, in whatever worlds (exit status of Doxygen,
    namespace provided by the host), complete, perform the same
    assignments with the same values in the same order, and leave every
    assigned name bound to the same value. *)
Theorem configuration_deterministic (w1 w2 : World) :
  ∃ st1 st2,
    run_module w1 conf_py = Ok st1 ∧
    run_module w2 conf_py = Ok st2 ∧
    assignments (trace st1) = assignments (trace st2) ∧
    (assignments (trace st1)).*1 = conf_names ∧
    Forall (λ x, globals st1 !! x = globals st2 !! x
                 ∧ globals st1 !! x = bound_value x conf_bindings) conf_names.
Proof.
  exists (final_state w1), (final_state w2).
  split; [apply conf_py_runs|]. split; [apply conf_py_runs|].
  rewrite !final_assignments. split; [reflexivity|]. split; [reflexivity|].
  apply Forall_forall. intros x Hx.
  unfold final_state. cbn [globals].
  by rewrite !lookup_bind_all_bound.
Qed.

(** * Further properties of the module *)

(** ** The namespace the module leaves *)

Lemma bound_value_None x bs : x ∉ bs.*1 → bound_value x bs = None.
Proof.
  induction bs as [|[y v] rest IH]; [done|].
  cbn [fmap list_fmap fst bound_value].
  intros [Hne Hrest]%not_elem_of_cons. rewrite (IH Hrest).
  destruct (String.eqb_spec y x) as [->|_]; [done|reflexivity].
Qed.

Lemma bound_value_NoDup x v bs :
  NoDup bs.*1 → (x, v) ∈ bs → bound_value x bs = Some v.
Proof.
  induction bs as [|[y u] rest IH]; [by intros _ ?%elem_of_nil|].
  cbn [fmap list_fmap fst bound_value].
  intros [Hy Hnd]%NoDup_cons [[= -> ->]|Hin]%elem_of_cons.
  - by rewrite (bound_value_None y rest Hy), String.eqb_refl.
  - by rewrite (IH Hnd Hin).
Qed.

Lemma dom_bind_all bs (ns : gmap string value) :
  dom (bind_all bs ns) = dom ns ∪ list_to_set bs.*1.
Proof.
  revert ns. induction bs as [|[y v] rest IH]; intros ns.
  - cbn. by rewrite (right_id_L ∅ (∪)).
  - change (bind_all ((y, v) :: rest) ns) with (bind_all rest (<[y := v]> ns)).
    rewrite IH, dom_insert_L. cbn [fmap list_fmap fst list_to_set].
    by rewrite (comm_L (∪) {[y]} (dom ns)), (assoc_L (∪)).
Qed.

Lemma conf_names_NoDup : NoDup conf_names.
Proof. apply (bool_decide_unpack _). vm_compute. reflexivity. Qed.

(** X1: the module leaves alone every name of the host's namespace that
    it neither imports nor assigns. *)
Theorem host_names_preserved (w : World) (x : string) :
  x ∉ imported_names ++ conf_names →
  ∃ st, run_module w conf_py = Ok st ∧
        globals st !! x = initial_namespace w !! x.
Proof.
  intros Hx. exists (final_state w). split; [apply conf_py_runs|].
  apply not_elem_of_app in Hx as [Himp Hconf].
  rewrite final_lookup, (bound_value_None x conf_bindings Hconf).
  unfold imported_names in Himp.
  apply not_elem_of_cons in Himp as [H1 Himp].
  apply not_elem_of_cons in Himp as [H2 Himp].
  apply not_elem_of_cons in Himp as [H3 _].
  unfold prelude_namespace.
  by rewrite !lookup_insert_ne.
Qed.

Lemma host_names_preserved_witness :
  ∃ st, run_module host_world conf_py = Ok st ∧
        globals st !! "tags" = initial_namespace host_world !! "tags".
Proof.
  apply (host_names_preserved host_world "tags").
  apply (bool_decide_unpack _). vm_compute. reflexivity.
Defined.

Lemma final_lookup_unassigned w x :
  x ∉ conf_names →
  globals (final_state w) !! x = prelude_namespace (initial_namespace w) !! x.
Proof. intros Hx. by rewrite final_lookup, (bound_value_None x conf_bindings Hx). Qed.

Lemma imported_not_assigned : Forall (λ x, x ∉ conf_names) imported_names.
Proof. apply (bool_decide_unpack _). vm_compute. reflexivity. Qed.

(** X2: after evaluation the namespace binds the host's names, the three
    imported names and the assigned names, and no others; no assignment
    shadows an import, so the imported names still name what was
    imported. *)
Theorem names_bound_after (w : World) :
  ∃ st, run_module w conf_py = Ok st ∧
        dom (globals st) =
          dom (initial_namespace w)
          ∪ list_to_set (imported_names ++ conf_names) ∧
        globals st !! "StandaloneHTMLBuilder" =
          Some (VMember "sphinx.builders.html" "StandaloneHTMLBuilder") ∧
        globals st !! "subprocess" = Some (VModule "subprocess") ∧
        globals st !! "os" = Some (VModule "os").
Proof.
  exists (final_state w). split; [apply conf_py_runs|].
  pose proof imported_not_assigned as Himp. unfold imported_names in Himp.
  apply Forall_cons in Himp as [H1 Himp].
  apply Forall_cons in Himp as [H2 Himp].
  apply Forall_cons in Himp as [H3 _].
  rewrite !final_lookup_unassigned by assumption.
  unfold prelude_namespace. split; [|split; [|split]].
  - unfold final_state, prelude_namespace. cbn [globals].
    rewrite dom_bind_all, !dom_insert_L, list_to_set_app_L.
    fold conf_names. generalize (list_to_set conf_names : gset string).
    intros names. cbn [imported_names list_to_set].
    apply set_eq. intros y.
    rewrite !elem_of_union, !elem_of_singleton, elem_of_empty. tauto.
  - rewrite !lookup_insert_ne by discriminate. apply lookup_insert_eq.
  - rewrite lookup_insert_ne by discriminate. apply lookup_insert_eq.
  - apply lookup_insert_eq.
Qed.

(** X3: no name is assigned twice, so every assignment the module performs
    is still in force when evaluation ends: each assigned name is bound to
    the value of its one assignment. *)
Theorem assignments_survive (w : World) :
  ∃ st, run_module w conf_py = Ok st ∧
        NoDup (assignments (trace st)).*1 ∧
        Forall (λ b, globals st !! b.1 = Some b.2) (assignments (trace st)).
Proof.
  exists (final_state w). split; [apply conf_py_runs|].
  rewrite final_assignments. split; [apply conf_names_NoDup|].
  apply Forall_forall. intros [x v] Hin. cbn [fst snd].
  rewrite final_lookup.
  by rewrite (bound_value_NoDup x v conf_bindings conf_names_NoDup Hin).
Qed.

(** X4: the four dict displays of the module keep all their entries: each
    of these names ends up bound to a dict whose keys and values are the
    display's, entry by entry in source order, none dropped or replaced by
    a repeated key. *)
Theorem dict_displays_complete (w : World) :
  ∃ st, run_module w conf_py = Ok st ∧
        (dict_displays conf_py).*1 =
          ["html_theme_options"; "html_sidebars"; "html_context";
           "breathe_projects"] ∧
        Forall (λ d, ∃ kvs,
                  globals st !! d.1 = Some (VDict kvs) ∧
                  map (λ kv, (literal_result kv.1, literal_result kv.2)) d.2 =
                  map (λ kv, (Ok kv.1, Ok kv.2)) kvs)
               (dict_displays conf_py).
Proof.
  exists (final_state w). split; [apply conf_py_runs|].
  split; [reflexivity|].
  repeat apply Forall_cons_2; [| | | |apply Forall_nil_2];
    (eexists; rewrite final_lookup; split; [reflexivity|];
     vm_compute; reflexivity).
Qed.

(** ** What the body needs from the imports *)

Lemma exec_body w (rest : list stmt) s :
  globals s !! "subprocess" = Some (VModule "subprocess") →
  forallb is_literal_assignment rest = true →
  exec_block w (SExpr (ECall (EAttr (EName "subprocess") "call")
                             [EStr doxygen_command] [("shell", EBool true)])
                :: rest) s =
  match literal_bindings rest with
  | Ok bs =>
      Ok (tt, mkState (bind_all bs (globals s))
                      (trace s
                       ++ EvSpawn doxygen_command true
                                  (run_shell w doxygen_command)
                       :: map assign_event bs))
  | Raise e => Raise e
  end.
Proof.
  intros Hsub Hrest. cbn [exec_block exec].
  pose proof (eval_subprocess_call w doxygen_command s Hsub) as Hcall.
  rewrite (bind_ok _ _ s tt
             (mkState (globals s)
                      (trace s ++ [EvSpawn doxygen_command true
                                           (run_shell w doxygen_command)]))).
  - rewrite exec_literal_assignments by done. cbn [globals trace].
    destruct (literal_bindings rest); [|done]. by rewrite <- app_assoc.
  - by rewrite (bind_ok _ _ _ _ _ Hcall).
Qed.

Lemma exec_body_unbound w (rest : list stmt) s :
  globals s !! "subprocess" = None →
  exec_block w (SExpr (ECall (EAttr (EName "subprocess") "call")
                             [EStr doxygen_command] [("shell", EBool true)])
                :: rest) s =
  Raise (NameError "subprocess").
Proof.
  intros Hsub. cbn [exec_block exec eval].
  do 4 apply bind_raise. unfold lookup_name. by rewrite Hsub.
Qed.

(** X5: [subprocess] is the only name the module ever reads; [os] and
    [StandaloneHTMLBuilder] are imported and never used.  Accordingly the
    statements after the imports run to completion in any namespace in
    which [subprocess] names the subprocess module, start the one process
    and make the same bindings. *)
Theorem body_reads_only_subprocess (w : World) (ns : gmap string value) :
  ns !! "subprocess" = Some (VModule "subprocess") →
  @concat string <$> mapM stmt_reads conf_py = Some ["subprocess"] ∧
  exec_block w conf_body (mkState ns []) =
  Ok (tt, mkState (bind_all conf_bindings ns)
                  (EvSpawn "doxygen Doxyfile" true
                           (run_shell w "doxygen Doxyfile")
                   :: map assign_event conf_bindings)).
Proof.
  intros Hsub. split; [reflexivity|].
  change conf_body with (List.hd SPass conf_body :: conf_assignments).
  pose proof conf_assignments_literal as Hlit.
  pose proof conf_assignments_bindings as Hbs.
  revert Hlit Hbs. generalize conf_assignments. intros rest Hlit Hbs.
  cbn [List.hd conf_body drop conf_py].
  rewrite (exec_body w rest (mkState ns []) Hsub Hlit), Hbs.
  reflexivity.
Qed.

Lemma body_reads_only_subprocess_witness :
  @concat string <$> mapM stmt_reads conf_py = Some ["subprocess"] ∧
  exec_block plain_world conf_body
             (mkState {["subprocess" := VModule "subprocess"]} []) =
  Ok (tt, mkState (bind_all conf_bindings
                            {["subprocess" := VModule "subprocess"]})
                  (EvSpawn "doxygen Doxyfile" true
                           (run_shell plain_world "doxygen Doxyfile")
                   :: map assign_event conf_bindings)).
Proof.
  apply (body_reads_only_subprocess plain_world
           {["subprocess" := VModule "subprocess"]}).
  reflexivity.
Defined.

(** X6: without the import the body fails at once: in a namespace that
    does not bind [subprocess], the statements after the imports raise
    [NameError] for that name. *)
Theorem body_without_import_raises (w : World) (ns : gmap string value)
    (t : list event) :
  ns !! "subprocess" = None →
  exec_block w conf_body (mkState ns t) = Raise (NameError "subprocess").
Proof.
  intros Hsub.
  change conf_body with (List.hd SPass conf_body :: conf_assignments).
  generalize conf_assignments. intros rest.
  cbn [List.hd conf_body drop conf_py].
  by apply exec_body_unbound.
Qed.

Lemma body_without_import_raises_witness :
  exec_block plain_world conf_body (mkState ∅ []) =
  Raise (NameError "subprocess").
Proof.
  apply (body_without_import_raises plain_world ∅ []). reflexivity.
Defined.

(** ** The assigned values *)

(** X7: every value the module assigns is plain data all the way down:
    strings, integers and booleans, in lists and in dicts keyed by
    strings.  No assigned value holds a module, a function or a class. *)
Theorem assigned_values_plain_data (w : World) :
  ∃ st, run_module w conf_py = Ok st ∧
        forallb (λ b, plain_data b.2) (assignments (trace st)) = true.
Proof.
  exists (final_state w). split; [apply conf_py_runs|].
  rewrite final_assignments. reflexivity.
Qed.

(** X8: the one Breathe project is the documented project itself:
    [breathe_projects] has a single key, and [project] and
    [breathe_default_project] are both that key. *)
Theorem single_breathe_project (w : World) :
  ∃ st name projects,
    run_module w conf_py = Ok st ∧
    globals st !! "project" = Some name ∧
    globals st !! "breathe_default_project" = Some name ∧
    globals st !! "breathe_projects" = Some (VDict projects) ∧
    dict_keys projects = [name].
Proof.
  exists (final_state w), (VStr "hyperion::mpl"),
         [(VStr "hyperion::mpl", VStr "_build/xml")].
  split; [apply conf_py_runs|].
  rewrite !final_lookup. repeat split.
Qed.

(** ** Evaluating again, and in another order *)

Lemma bind_all_app bs1 bs2 (ns : gmap string value) :
  bind_all (bs1 ++ bs2) ns = bind_all bs2 (bind_all bs1 ns).
Proof. apply foldl_app. Qed.

(** Making a run of bindings a second time changes nothing. *)
Lemma bind_all_idemp bs (ns : gmap string value) :
  bind_all bs (bind_all bs ns) = bind_all bs ns.
Proof.
  apply map_eq. intros x. rewrite !lookup_bind_all.
  by destruct (bound_value x bs).
Qed.

Lemma final_globals_bind_all w :
  globals (final_state w) =
  bind_all ([("StandaloneHTMLBuilder",
              VMember "sphinx.builders.html" "StandaloneHTMLBuilder");
             ("subprocess", VModule "subprocess");
             ("os", VModule "os")] ++ conf_bindings)
           (initial_namespace w).
Proof. unfold final_state. cbn [globals]. by rewrite bind_all_app. Qed.

(** X9: evaluation is idempotent on the namespace: evaluating the module
    again in the namespace a first evaluation left, whatever Doxygen
    returns the second time, completes and leaves that namespace as it
    is. *)
Theorem evaluation_idempotent (w : World) (run_shell' : string → Z) :
  ∃ st st',
    run_module w conf_py = Ok st ∧
    run_module (mkWorld run_shell' (globals st)) conf_py = Ok st' ∧
    globals st' = globals st.
Proof.
  exists (final_state w),
         (final_state (mkWorld run_shell' (globals (final_state w)))).
  split; [apply conf_py_runs|]. split; [apply conf_py_runs|].
  rewrite (final_globals_bind_all (mkWorld _ _)). cbn [initial_namespace].
  rewrite (final_globals_bind_all w). apply bind_all_idemp.
Qed.

Lemma literal_bindings_cons_inv (s : stmt) (l : list stmt) bs :
  literal_bindings (s :: l) = Ok bs →
  ∃ x rhs v bs0,
    s = SAssign x rhs ∧ literal_result rhs = Ok v ∧
    literal_bindings l = Ok bs0 ∧ bs = (x, v) :: bs0.
Proof.
  destruct s; try discriminate. cbn [literal_bindings].
  destruct (literal_result rhs) as [v|] eqn:Hv; [|discriminate].
  destruct (literal_bindings l) as [bs0|] eqn:Hl; [|discriminate].
  intros [= <-]. exists target, rhs, v, bs0. repeat split; assumption.
Qed.

Lemma literal_bindings_cons x rhs v (l : list stmt) bs0 :
  literal_result rhs = Ok v → literal_bindings l = Ok bs0 →
  literal_bindings (SAssign x rhs :: l) = Ok ((x, v) :: bs0).
Proof. intros Hv Hl. cbn [literal_bindings]. by rewrite Hv, Hl. Qed.

Lemma literal_bindings_Permutation (body body' : list stmt) :
  body ≡ₚ body' →
  ∀ bs, literal_bindings body = Ok bs →
        ∃ bs', literal_bindings body' = Ok bs' ∧ bs ≡ₚ bs'.
Proof.
  induction 1 as [|s l l' _ IH|s1 s2 l|l1 l2 l3 _ IH1 _ IH2]; intros bs Hbs.
  - exists []. by injection Hbs as <-.
  - apply literal_bindings_cons_inv in Hbs
      as (x & rhs & v & bs0 & -> & Hv & Hl & ->).
    destruct (IH bs0 Hl) as (bs0' & Hl' & Hperm).
    exists ((x, v) :: bs0'). split; [by apply literal_bindings_cons|].
    by constructor.
  - apply literal_bindings_cons_inv in Hbs
      as (x2 & rhs2 & v2 & bs1 & -> & Hv2 & Hl1 & ->).
    apply literal_bindings_cons_inv in Hl1
      as (x1 & rhs1 & v1 & bs0 & -> & Hv1 & Hl & ->).
    exists ((x1, v1) :: (x2, v2) :: bs0).
    split; [by do 2 (apply literal_bindings_cons; [done|])|].
    by constructor.
  - destruct (IH1 bs Hbs) as (bs2 & Hbs2 & Hperm2).
    destruct (IH2 bs2 Hbs2) as (bs3 & Hbs3 & Hperm3).
    exists bs3. split; [done|]. by etrans.
Qed.

(** Bindings of distinct names commute. *)
Lemma bind_all_Permutation bs bs' (ns : gmap string value) :
  NoDup bs.*1 → bs ≡ₚ bs' → bind_all bs ns = bind_all bs' ns.
Proof.
  intros Hnd Hperm.
  assert (Hnd' : NoDup bs'.*1) by by rewrite <- Hperm.
  apply map_eq. intros x. rewrite !lookup_bind_all.
  destruct (decide (x ∈ bs.*1)) as [Hin|Hout].
  - apply list_elem_of_fmap in Hin as ([y v] & -> & Hin). cbn [fst].
    rewrite (bound_value_NoDup y v bs Hnd Hin).
    rewrite Hperm in Hin. by rewrite (bound_value_NoDup y v bs' Hnd' Hin).
  - rewrite (bound_value_None x bs Hout).
    rewrite Hperm in Hout. by rewrite (bound_value_None x bs' Hout).
Qed.

Lemma literal_assignments_Permutation (body body' : list stmt) :
  body ≡ₚ body' →
  forallb is_literal_assignment body = true →
  forallb is_literal_assignment body' = true.
Proof.
  intros Hperm. rewrite !forallb_forall. intros Hall s Hs.
  apply Hall. apply list_elem_of_In. rewrite Hperm. by apply list_elem_of_In.
Qed.

(** X10: the order of the assignments is immaterial: running the imports
    and the call of Doxygen followed by the module's assignments in any
    other order completes, performs the same assignments, and leaves the
    namespace the module itself leaves. *)
Theorem assignment_order_immaterial (w : World) (body : list stmt) :
  body ≡ₚ conf_assignments →
  ∃ st st',
    run_module w conf_py = Ok st ∧
    run_module w (conf_prelude ++ body) = Ok st' ∧
    globals st' = globals st ∧
    assignments (trace st') ≡ₚ assignments (trace st) ∧
    spawns (trace st') = spawns (trace st).
Proof.
  intros Hperm. symmetry in Hperm.
  destruct (literal_bindings_Permutation _ _ Hperm conf_bindings
              conf_assignments_bindings) as (bs & Hbs & Hbperm).
  pose proof (literal_assignments_Permutation _ _ Hperm
                conf_assignments_literal) as Hlit.
  exists (final_state w),
         (mkState (bind_all bs (prelude_namespace (initial_namespace w)))
                  (prelude_trace w ++ map assign_event bs)).
  split; [apply conf_py_runs|]. split; [|split; [|split]].
  - unfold run_module. rewrite exec_block_app, prelude_runs.
    rewrite exec_literal_assignments by exact Hlit. by rewrite Hbs.
  - unfold final_state. cbn [globals]. symmetry.
    apply bind_all_Permutation; [apply conf_names_NoDup | exact Hbperm].
  - rewrite final_assignments. cbn [trace].
    by rewrite assignments_app, assignments_assign_events.
  - rewrite final_spawns. cbn [trace].
    by rewrite spawns_app, spawns_assign_events.
Qed.

Lemma assignment_order_immaterial_witness :
  ∃ st st',
    run_module plain_world conf_py = Ok st ∧
    run_module plain_world (conf_prelude ++ reverse conf_assignments) = Ok st' ∧
    globals st' = globals st ∧
    assignments (trace st') ≡ₚ assignments (trace st) ∧
    spawns (trace st') = spawns (trace st).
Proof.
  apply (assignment_order_immaterial plain_world (reverse conf_assignments)).
  apply reverse_Permutation.
Defined.

(** * The module on a host that can fail *)

(** ** Agreement with [run_module] on a sound host *)

Lemma bind_ext {A B : Type} (m m' : M A) (k k' : A → M B) s :
  m s = m' s → (∀ a s', k a s' = k' a s') → (m ≫= k) s = (m' ≫= k') s.
Proof.
  intros Hm Hk. unfold mbind, M_bind. rewrite Hm.
  destruct (m' s) as [[a s']|e]; [apply Hk | reflexivity].
Qed.

Lemma eval_each_ext {A B : Type} (f g : A → M B) (items : list A) :
  Forall (λ x, ∀ s, f x s = g x s) items →
  ∀ s, eval_each f items s = eval_each g items s.
Proof.
  induction 1 as [|x rest Hx _ IH]; intros s; cbn [eval_each]; [reflexivity|].
  apply bind_ext; [apply Hx|]. intros v s'.
  apply bind_ext; [apply IH | reflexivity].
Qed.

Lemma host_subprocess_run_agrees h check args keywords s :
  shell_starts h = true →
  host_subprocess_run h check args keywords s =
  subprocess_run (host_env h) check args keywords s.
Proof.
  intros Hsh. unfold host_subprocess_run. rewrite Hsh.
  destruct args as [|[] [|]]; try reflexivity.
  destruct keywords as [|[kw sh] [|]]; try reflexivity.
  unfold subprocess_run.
  destruct (String.eqb kw "shell" && truthy sh); reflexivity.
Qed.

Lemma host_call_agrees h f args keywords s :
  shell_starts h = true →
  host_call h f args keywords s = call (host_env h) f args keywords s.
Proof.
  intros Hsh. destruct f; try reflexivity. unfold host_call, call.
  destruct (String.eqb modname "subprocess" && String.eqb name "call");
    [by apply host_subprocess_run_agrees|].
  destruct (String.eqb modname "subprocess" && String.eqb name "check_call");
    [by apply host_subprocess_run_agrees | reflexivity].
Qed.

(** Once the shell starts, expressions evaluate on the host as they do in
    its world. *)
Lemma host_eval_agrees h (e : expr) :
  shell_starts h = true → ∀ s, host_eval h e s = eval (host_env h) e s.
Proof.
  intros Hsh.
  induction e as [ | b | n | str | id | obj attr IH | items IH
                 | items comma IH | entries IH
                 | func args keywords IHf IHa IHk ]
    using expr_nested_ind; intros s; try reflexivity.
  - cbn [host_eval eval]. apply bind_ext; [apply IH | reflexivity].
  - cbn [host_eval eval].
    apply bind_ext; [by apply eval_each_ext | reflexivity].
  - destruct items as [|item [|item' rest]].
    + reflexivity.
    + destruct comma.
      * cbn [host_eval eval].
        apply bind_ext; [by apply eval_each_ext | reflexivity].
      * cbn [host_eval eval]. by apply (Forall_inv IH).
    + cbn [host_eval eval].
      apply bind_ext; [by apply eval_each_ext | reflexivity].
  - cbn [host_eval eval]. apply bind_ext; [|reflexivity].
    apply eval_each_ext. eapply Forall_impl; [exact IH|].
    intros [k v] [IHk IHv] s'. cbn [fst snd] in IHk, IHv.
    apply bind_ext; [apply IHk|]. intros kv s''.
    apply bind_ext; [apply IHv | reflexivity].
  - cbn [host_eval eval]. apply bind_ext; [apply IHf|]. intros f s1.
    apply bind_ext; [by apply eval_each_ext|]. intros avs s2.
    apply bind_ext.
    + apply eval_each_ext. eapply Forall_impl; [exact IHk|].
      intros [kw a] IHa' s'. cbn [snd] in IHa'.
      apply bind_ext; [apply IHa' | reflexivity].
    + intros kvs s3. by apply host_call_agrees.
Qed.

Lemma host_exec_agrees h (st : stmt) s :
  shell_starts h = true →
  Forall (λ m, importable h m = true) (imported_modules [st]) →
  host_exec h st s = exec (host_env h) st s.
Proof.
  intros Hsh Himp. destruct st; try reflexivity.
  - cbn [imported_modules flat_map] in Himp. rewrite app_nil_r in Himp.
    cbn [host_exec exec]. apply bind_ext; [|reflexivity].
    apply eval_each_ext. eapply Forall_impl; [exact Himp|].
    intros m Hm s'. unfold host_import_module. by rewrite Hm.
  - cbn [imported_modules flat_map app] in Himp. apply Forall_inv in Himp.
    cbn [host_exec exec]. by rewrite Himp.
  - cbn [host_exec exec].
    apply bind_ext; [by apply host_eval_agrees | reflexivity].
  - cbn [host_exec exec].
    apply bind_ext; [by apply host_eval_agrees | reflexivity].
Qed.

Lemma host_exec_block_agrees h (body : list stmt) :
  shell_starts h = true →
  Forall (λ m, importable h m = true) (imported_modules body) →
  ∀ s, host_exec_block h body s = exec_block (host_env h) body s.
Proof.
  intros Hsh. induction body as [|st rest IH]; intros Himp s; [reflexivity|].
  cbn [imported_modules flat_map] in Himp.
  apply Forall_app in Himp as [Hst Hrest].
  cbn [host_exec_block exec_block]. apply bind_ext.
  - apply host_exec_agrees; [done|].
    cbn [imported_modules flat_map]. by rewrite app_nil_r.
  - intros [] s'. apply IH. exact Hrest.
Qed.

(** On a host whose import system finds what a module imports and whose
    shell starts, [host_run] is [run_module]. *)
Lemma host_run_agrees h (body : list stmt) :
  shell_starts h = true →
  Forall (λ m, importable h m = true) (imported_modules body) →
  host_run h body = run_module (host_env h) body.
Proof.
  intros Hsh Himp. unfold host_run, run_module.
  by rewrite host_exec_block_agrees.
Qed.

(** ** The failures a host can inflict *)

Lemma host_exec_block_app h (b1 b2 : list stmt) s :
  host_exec_block h (b1 ++ b2) s =
  match host_exec_block h b1 s with
  | Ok (_, s') => host_exec_block h b2 s'
  | Raise e => Raise e
  end.
Proof.
  revert s. induction b1 as [|st b1 IH]; intros s; [reflexivity|].
  cbn [host_exec_block app]. unfold mbind, M_bind.
  destruct (host_exec h st s) as [[[] s1]|e]; [apply IH | reflexivity].
Qed.

(** A shell that does not start makes the call raise [OSError]. *)
Lemma host_eval_call_no_shell h cmd s :
  globals s !! "subprocess" = Some (VModule "subprocess") →
  shell_starts h = false →
  host_eval h (ECall (EAttr (EName "subprocess") "call")
                     [EStr cmd] [("shell", EBool true)]) s =
  Raise (OSError cmd).
Proof.
  intros Hsub Hsh. cbn [host_eval eval_each].
  rewrite (bind_ok _ _ s (VMember "subprocess" "call") s).
  - cbv -[shell_starts]. by rewrite Hsh.
  - rewrite (bind_ok _ _ s (VModule "subprocess") s); [reflexivity|].
    by apply lookup_name_bound.
Qed.

(** The imports and the call on a host that is not sound: the first
    missing module, or else the shell, ends the evaluation. *)
Lemma host_prelude_unsound h (rest : list stmt) ns :
  host_sound h = false →
  ∃ e, host_exec_block h (conf_prelude ++ rest) (mkState ns []) = Raise e ∧
       host_fault e = true.
Proof.
  unfold host_sound. intros Hsound.
  destruct (importable h "sphinx.builders.html") eqn:H1.
  2:{ exists (ImportError "sphinx.builders.html"). split; [|reflexivity].
      cbn [conf_prelude take conf_py app host_exec_block host_exec].
      rewrite H1. reflexivity. }
  destruct (importable h "subprocess") eqn:H2.
  2:{ exists (ImportError "subprocess"). split; [|reflexivity].
      cbn [conf_prelude take conf_py app host_exec_block host_exec eval_each].
      unfold host_import_module. rewrite H1, H2. reflexivity. }
  destruct (importable h "os") eqn:H3.
  2:{ exists (ImportError "os"). split; [|reflexivity].
      cbn [conf_prelude take conf_py app host_exec_block host_exec eval_each].
      unfold host_import_module. rewrite H1, H2, H3. reflexivity. }
  destruct (shell_starts h) eqn:H4; [discriminate Hsound|].
  exists (OSError doxygen_command). split; [|reflexivity].
  change (conf_prelude ++ rest)
    with (take 2 conf_py ++ List.hd SPass conf_body :: rest).
  rewrite host_exec_block_app.
  assert (Himports :
    host_exec_block h (take 2 conf_py) (mkState ns []) =
    Ok (tt, mkState (prelude_namespace ns)
                    [EvImport "sphinx.builders.html"; EvImport "subprocess";
                     EvImport "os"])).
  { cbn [take conf_py host_exec_block host_exec eval_each].
    unfold host_import_module. rewrite H1, H2, H3. reflexivity. }
  rewrite Himports.
  cbn [List.hd conf_body drop conf_py host_exec_block host_exec].
  do 2 apply bind_raise. apply host_eval_call_no_shell; [|exact H4].
  cbn [globals]. apply prelude_namespace_subprocess.
Qed.

Lemma final_bindings_bound w :
  Forall (λ b, globals (final_state w) !! b.1 = Some b.2) conf_bindings.
Proof.
  apply Forall_forall. intros [x v] Hin. cbn [fst snd].
  rewrite final_lookup.
  by rewrite (bound_value_NoDup x v conf_bindings conf_names_NoDup Hin).
Qed.


